(** * supabase-typed-query: the Entity factories and the types they are written against

    A shallow embedding of [src/types.ts], [src/entity/Entity.ts] and of the
    schema-generic revision of the Entity factory, with the properties the
    specification states about them.

    Layout:
    - [Types]: the schema-derived table types of [types.ts], with TypeScript
      object types rendered as finite maps from property keys;
    - the [QueryBuilder] interface of [types.ts] as a datatype of calls, and the
      wrapped client as the behaviour of its builder;
    - the two [Entity] factories, over the functions they import from [./core];
    - [./core] itself, which is not part of the sources at hand, modelled from
      the specification;
    - the theorems. *)

From stdpp Require Import gmap strings list fin_maps.

Local Open Scope string_scope.
Local Open Scope list_scope.

(* ===================================================================== *)
(** ** Schema-derived types ([types.ts], lines 13-86)                    *)
(* ===================================================================== *)

Module Types.

(** A property key of a TypeScript object type.  [keyof] yields keys of all
    three kinds; [& string] keeps the string ones. *)
Inductive PropertyKey :=
| KString (s : string)
| KNumber (n : N)
| KSymbol (s : positive).

#[global] Instance PropertyKey_eq_dec : EqDecision PropertyKey.
Proof. solve_decision. Defined.

Definition PropertyKey_encode (k : PropertyKey) : string + (N + positive) :=
  match k with
  | KString s => inl s
  | KNumber n => inr (inl n)
  | KSymbol s => inr (inr s)
  end.

Definition PropertyKey_decode (x : string + (N + positive)) : PropertyKey :=
  match x with
  | inl s => KString s
  | inr (inl n) => KNumber n
  | inr (inr s) => KSymbol s
  end.

#[global] Instance PropertyKey_countable : Countable PropertyKey.
Proof.
  apply (inj_countable' PropertyKey_encode PropertyKey_decode).
  by intros [].
Defined.

Section Schema.

(** The object types a schema description supplies ([Row: object], ...).
    They are given from outside; nothing here looks into them. *)
Context {Shape : Type}.

(** An object type with members of type [A]: its listed members, and the
    member type [A] of [Record<string, A>] when it is (or is met with) one.
    [Record<string, A>] has no listed member. *)
Record ObjectType (A : Type) := {
  members : gmap PropertyKey A;
  index : option A;
}.
Arguments members {A} _.
Arguments index {A} _.

(** One entry of [Tables]: [{ Row: object; Insert: object; Update: object }]. *)
Record TableShape := {
  Row : Shape;
  Insert : Shape;
  Update : Shape;
}.

(** One entry of [Views]: [{ Row: object }]. *)
Record ViewShape := {
  ViewRow : Shape;
}.

(** [{ Args: object; Returns: unknown }] *)
Record FunctionShape := {
  Args : Shape;
  Returns : Shape;
}.

(** The [public] member of [DatabaseSchema]; the members marked [?] are
    optional. *)
Record PublicSchema := {
  Tables : ObjectType TableShape;
  Views : option (ObjectType ViewShape);
  Functions : option (ObjectType FunctionShape);
  Enums : option (ObjectType Shape);
  CompositeTypes : option (ObjectType Shape);
}.

Record DatabaseSchema := {
  public : PublicSchema;
}.

(** [keyof X], as the test whether [k] is one of the keys: a listed member, or,
    under [Record<string, A>], any string. *)
Definition keyof {A} (X : ObjectType A) (k : PropertyKey) : bool :=
  match members X !! k with
  | Some _ => true
  | None =>
      match index X, k with
      | Some _, KString _ => true
      | _, _ => false
      end
  end.

(** [K & string]: the strings among the keys [K]. *)
Definition and_string (K : PropertyKey -> bool) (s : string) : bool :=
  K (KString s).

(** [X[k]]: an indexed access; there is no such type when [k] is not a key.
    A member is looked up under the key it is written with: a member written
    with a number is kept apart from the string that spells the number, so the
    access is the one of TypeScript for the object types that list no member
    under a number, and for the others at every string that spells none of
    their numbers. *)
Definition access {A} (X : ObjectType A) (k : PropertyKey) : option A :=
  match members X !! k with
  | Some a => Some a
  | None =>
      match k with
      | KString _ | KNumber _ => index X
      | KSymbol _ => None
      end
  end.

(** [TableNames<DB> = keyof DB["public"]["Tables"] & string] *)
Definition TableNames (DB : DatabaseSchema) : string -> bool :=
  and_string (keyof (Tables (public DB))).

(** [TableRow<T, DB> = DB["public"]["Tables"][T]["Row"]] *)
Definition TableRow (T : string) (DB : DatabaseSchema) : option Shape :=
  Row <$> access (Tables (public DB)) (KString T).

(** [TableInsert<T, DB> = DB["public"]["Tables"][T]["Insert"]] *)
Definition TableInsert (T : string) (DB : DatabaseSchema) : option Shape :=
  Insert <$> access (Tables (public DB)) (KString T).

(** [TableUpdate<T, DB> = DB["public"]["Tables"][T]["Update"]] *)
Definition TableUpdate (T : string) (DB : DatabaseSchema) : option Shape :=
  Update <$> access (Tables (public DB)) (KString T).

(** [Record<string, A>] *)
Definition RecordString {A} (a : A) : ObjectType A :=
  {| members := ∅; index := Some a |}.

(** The placeholder [Database] (lines 34-49); [record] stands for
    [Record<string, unknown>] and [unknown] for [unknown]. *)
Definition Database (record unknown : Shape) : DatabaseSchema :=
  {| public :=
       {| Tables := RecordString {| Row := record; Insert := record; Update := record |};
          Views := Some (RecordString {| ViewRow := record |});
          Functions := Some (RecordString {| Args := record; Returns := unknown |});
          Enums := Some (RecordString unknown);
          CompositeTypes := Some (RecordString unknown) |} |}.

End Schema.

Arguments ObjectType : clear implicits.
Arguments members {A} _.
Arguments index {A} _.
Arguments TableShape : clear implicits.
Arguments ViewShape : clear implicits.
Arguments FunctionShape : clear implicits.
Arguments PublicSchema : clear implicits.
Arguments DatabaseSchema : clear implicits.

(** A generated schema description with two tables, and with a numeric key and
    a symbol key besides; shapes are named by strings. *)
Definition sample_schema : DatabaseSchema string :=
  {| public :=
       {| Tables :=
            {| members :=
                 <[KString "tenants" :=
                     {| Row := "TenantRow"; Insert := "TenantInsert";
                        Update := "TenantUpdate" |}]>
                 (<[KString "users" :=
                     {| Row := "UserRow"; Insert := "UserInsert";
                        Update := "UserUpdate" |}]>
                 (<[KNumber 7 := {| Row := "R7"; Insert := "I7"; Update := "U7" |}]>
                 (<[KSymbol 1 := {| Row := "RS"; Insert := "IS"; Update := "US" |}]> ∅)));
               index := None |};
          Views := None;
          Functions := None;
          Enums := None;
          CompositeTypes := None |} |}.

End Types.


(* ===================================================================== *)
(** ** The query builder ([types.ts], lines 100-121)                     *)
(* ===================================================================== *)

Local Unset Elimination Schemes.

(** Data exchanged with the client ([unknown] in the source). *)
Inductive Value :=
| VNull
| VBool (b : bool)
| VNumber (n : Z)
| VString (s : string)
| VArray (elements : list Value)
| VObject (fields : list (string * Value)).

Local Set Elimination Schemes.

(** [options?: { ascending?: boolean }] *)
Record OrderOptions := {
  ascending : option bool;
}.

(** [options?: { onConflict?: string }] *)
Record UpsertOptions := {
  onConflict : option string;
}.

(** One constructor per method of the [QueryBuilder] interface, in the order
    of the interface, with the method's arguments. *)
Inductive Call :=
| CSelect (columns : option string)
| CInsert (data : Value)
| CUpdate (data : Value)
| CUpsert (data : Value) (options : option UpsertOptions)
| CDelete
| CMatch (query : list (string * Value))
| CEq (column : string) (value : Value)
| CNeq (column : string) (value : Value)
| CGt (column : string) (value : Value)
| CGte (column : string) (value : Value)
| CLt (column : string) (value : Value)
| CLte (column : string) (value : Value)
| CLike (column : string) (pattern : string)
| CIlike (column : string) (pattern : string)
| CIs (column : string) (value : option bool)
| CIn (column : string) (values : list Value)
| COr (filters : string)
| CSingle
| CLimit (count : Z)
| COrder (column : string) (options : option OrderOptions).

(** What a builder resolves to: [{ data: unknown; error: unknown }]. *)
Record Response := {
  data : Value;
  error : Value;
}.

(** One request issued to the wrapped client: the table given to [from] and the
    builder calls chained on the result, in call order. *)
Record Request := {
  table : string;
  calls : list Call;
}.

(** The client reported an error: the [error] member is not [null]. *)
Definition reported (r : Response) : bool :=
  match error r with
  | VNull => false
  | _ => true
  end.

Section Layer.

(** The state behind the wrapped client (the hosted database, the network).
    Only the client reads or changes it. *)
Context {W : Type}.

(** A [QueryBuilder] is given by what awaiting it yields once further calls
    have been chained on it: every method returns a [QueryBuilder] again, and
    the builder is a promise of a [Response].  The runs covered are those in
    which the promise resolves: a promise that rejects, or a call that throws,
    has no counterpart here. *)
Definition QueryBuilder := list Call -> W -> Response * W.

(** [SupabaseClientType]: [from: (table) => unknown], used as a [QueryBuilder]. *)
Record SupabaseClientType := {
  from : string -> QueryBuilder;
}.

(** The run of a program that talks to the client: the client's state, and a
    journal of the requests issued so far (kept for the statements only; no
    operation reads it). *)
Record Session := {
  world : W;
  journal : list Request;
}.

Definition Task (A : Type) : Type := Session -> A * Session.

#[global] Instance Task_ret : MRet Task := fun A a s => (a, s).

#[global] Instance Task_bind : MBind Task :=
  fun A B k t s => let '(a, s') := t s in k a s'.

(** A builder in the hands of this layer, with the table it came from and the
    calls made on it so far. *)
Record Chain := {
  builder : QueryBuilder;
  target : string;
  trace : list Call;
}.

(** [client.from(name)] *)
Definition start (client : SupabaseClientType) (name : string) : Chain :=
  {| builder := from client name; target := name; trace := [] |}.

(** [q.m(args)]: one method call on the builder. *)
Definition invoke (q : Chain) (c : Call) : Chain :=
  {| builder := fun rest => builder q (c :: rest);
     target := target q;
     trace := trace q ++ [c] |}.

(** [await q] *)
Definition await (q : Chain) : Task Response :=
  fun s =>
    let '(r, w) := builder q [] (world s) in
    (r, {| world := w;
           journal := journal s ++ [{| table := target q; calls := trace q |}] |}).

(* ===================================================================== *)
(** ** What [./types] and [./core] declare                               *)
(* ===================================================================== *)

(** [EntityConfig], as the factories read it: [config.softDelete] and
    [const { schema } = config]. *)
Record EntityConfig := {
  softDelete : bool;
  schema : option string;
}.

(** Modelled from the spec: the soft-delete mode ([./core] is not among the
    sources).  "A filter mode excluding rows flagged as logically deleted". *)
Inductive SoftDeleteMode :=
| include
| exclude.

(** Modelled from the spec: the parameter object of a generated method
    ([./types] is not among the sources), with the fields the spec names:
    [id], [where], [is], [wherein], [order], [items].  A member that is left
    out is [None] for [id] and the empty list for the others; the entries of an
    object are kept in the order in which they are enumerated. *)
Record Params := {
  id : option Value;
  where_ : list (string * Value);
  is_ : list (string * option bool);
  wherein : list (string * list Value);
  order : list (string * bool);
  items : list Value;
}.

(** Modelled from the spec: the result of an execution.  "This layer only
    chooses whether to return an error value or raise on execution". *)
Inductive Outcome :=
| Returned (r : Response)
| Raised (e : Value).

(** Modelled from the spec: the execution methods, [.one()], [.many()],
    [.first()] and their [OrThrow] variants. *)
Inductive Cardinality :=
| one
| many
| first.

Record Method := {
  cardinality : Cardinality;
  orThrow : bool;
}.

(** Modelled from the spec: the chainable execution object of a get method. *)
Definition Query : Type := Method -> Task Outcome.

(** Modelled from the spec: "a mutation query with OrThrow methods"; the
    argument tells whether the [OrThrow] variant is called. *)
Definition MutationQuery : Type := bool -> Task Outcome.

(** The functions the factories import from [./core].  The schema-generic
    factory passes a trailing [schema] argument, the other factory leaves it
    out: a parameter that is left out is [None]. *)
Record Core := {
  getSoftDeleteMode : bool -> SoftDeleteMode;
  makeGetItem :
    SupabaseClientType -> string -> SoftDeleteMode -> option string -> Params -> Query;
  makeGetItems :
    SupabaseClientType -> string -> SoftDeleteMode -> option string -> Params -> Query;
  makeAddItems :
    SupabaseClientType -> string -> option string -> Params -> MutationQuery;
  makeUpdateItem :
    SupabaseClientType -> string -> option string -> Params -> MutationQuery;
  makeUpdateItems :
    SupabaseClientType -> string -> option string -> Params -> MutationQuery;
  makeUpsertItems :
    SupabaseClientType -> string -> option string -> Params -> MutationQuery;
  makeDeleteItem :
    SupabaseClientType -> string -> option string -> Params -> MutationQuery;
  makeDeleteItems :
    SupabaseClientType -> string -> option string -> Params -> MutationQuery;
}.

(** A member of the object a factory returns. *)
Inductive Property :=
| ReadOp (f : Params -> Query)
| WriteOp (f : Params -> MutationQuery).

End Layer.

Arguments QueryBuilder : clear implicits.
Arguments SupabaseClientType : clear implicits.
Arguments Session : clear implicits.
Arguments Task : clear implicits.
Arguments Chain : clear implicits.
Arguments Query : clear implicits.
Arguments MutationQuery : clear implicits.
Arguments Core : clear implicits.
Arguments Property : clear implicits.

(* ===================================================================== *)
(** ** The Entity factories                                              *)
(* ===================================================================== *)

(** The generated methods, by the name of their property. *)
Inductive Getter :=
| getItem
| getItems.

Inductive Mutator :=
| addItems
| updateItem
| updateItems
| upsertItems
| deleteItem
| deleteItems.

Definition getterName (g : Getter) : string :=
  match g with
  | getItem => "getItem"
  | getItems => "getItems"
  end.

Definition mutatorName (u : Mutator) : string :=
  match u with
  | addItems => "addItems"
  | updateItem => "updateItem"
  | updateItems => "updateItems"
  | upsertItems => "upsertItems"
  | deleteItem => "deleteItem"
  | deleteItems => "deleteItems"
  end.

(** [src/entity/Entity.ts], lines 56-95.  The object literal is a map from
    property names to the generated methods; [core] stands for the import from
    [./core]. *)
Module NonGeneric.
Section Factory.
Context {W : Type}.

Definition Entity (core : Core W) (client : SupabaseClientType W) (name : string)
    (config : EntityConfig) : gmap string (Property W) :=
  let softDeleteMode := getSoftDeleteMode core (softDelete config) in
  list_to_map [
    ("getItem", ReadOp (makeGetItem core client name softDeleteMode None));
    ("getItems", ReadOp (makeGetItems core client name softDeleteMode None));
    ("addItems", WriteOp (makeAddItems core client name None));
    ("updateItem", WriteOp (makeUpdateItem core client name None));
    ("updateItems", WriteOp (makeUpdateItems core client name None))
  ].

End Factory.
End NonGeneric.

(** The schema-generic factory (the source file without a name), lines 70-135. *)
Module Generic.
Section Factory.
Context {W : Type}.

Definition Entity (core : Core W) (client : SupabaseClientType W) (name : string)
    (config : EntityConfig) : gmap string (Property W) :=
  let softDeleteMode := getSoftDeleteMode core (softDelete config) in
  let schema := schema config in
  list_to_map [
    ("getItem", ReadOp (makeGetItem core client name softDeleteMode schema));
    ("getItems", ReadOp (makeGetItems core client name softDeleteMode schema));
    ("addItems", WriteOp (makeAddItems core client name schema));
    ("updateItem", WriteOp (makeUpdateItem core client name schema));
    ("updateItems", WriteOp (makeUpdateItems core client name schema));
    ("upsertItems", WriteOp (makeUpsertItems core client name schema));
    ("deleteItem", WriteOp (makeDeleteItem core client name schema));
    ("deleteItems", WriteOp (makeDeleteItems core client name schema))
  ].

End Factory.
End Generic.

(** Using an entity: [entity.getItems(params).many()] and the like.  A choice
    of generated method and of execution method; [None] when the entity has no
    such method. *)
Inductive Execution :=
| Get (g : Getter) (m : Method)
| Mutate (u : Mutator) (orThrow : bool).

Definition throwing (x : Execution) : bool :=
  match x with
  | Get _ m => orThrow m
  | Mutate _ b => b
  end.

(** The uses that go through one of the five methods both factories provide. *)
Definition shared (x : Execution) : bool :=
  match x with
  | Get _ _ => true
  | Mutate (addItems | updateItem | updateItems) _ => true
  | Mutate _ _ => false
  end.

Definition perform {W} (entity : gmap string (Property W)) (x : Execution)
    (params : Params) : option (Task W Outcome) :=
  match x with
  | Get g m =>
      match entity !! getterName g with
      | Some (ReadOp f) => Some (f params m)
      | _ => None
      end
  | Mutate u b =>
      match entity !! mutatorName u with
      | Some (WriteOp f) => Some (f params b)
      | _ => None
      end
  end.

(** The function of [./core] behind a generated method. *)
Definition getterOf {W} (core : Core W) (g : Getter) :=
  match g with
  | getItem => makeGetItem core
  | getItems => makeGetItems core
  end.

Definition mutatorOf {W} (core : Core W) (u : Mutator) :=
  match u with
  | addItems => makeAddItems core
  | updateItem => makeUpdateItem core
  | updateItems => makeUpdateItems core
  | upsertItems => makeUpsertItems core
  | deleteItem => makeDeleteItem core
  | deleteItems => makeDeleteItems core
  end.

(** The property names the spec lists for an entity. *)
Definition crudNames : list string :=
  ["getItem"; "getItems"; "addItems"; "updateItem"; "updateItems";
   "upsertItems"; "deleteItem"; "deleteItems"].

Definition provides {W} (entity : gmap string (Property W)) (names : list string) : Prop :=
  Forall (fun k => is_Some (entity !! k)) names.

(* ===================================================================== *)
(** ** [./core], modelled from the specification                         *)
(* ===================================================================== *)

(** Modelled from the spec: what the spec leaves open about the chains that
    [./core] builds.  The spec names the parts of a chain ("where", "is",
    "wherein", "order", soft-delete mode) and the operations (add, update,
    upsert, delete) without giving the builder calls for all of them; the ones
    it does not give are taken as they come. *)
Record Conventions := {
  (** the calls that open the chain of a get method, before its filters *)
  opening : list Call;
  (** the calls by which getItem picks the item with the given [id] *)
  byId : Value -> list Call;
  (** the filter that excludes the rows flagged as logically deleted *)
  notDeleted : Call;
  (** the calls that close a chain for [.one()], [.many()], [.first()] *)
  closing : Cardinality -> list Call;
  (** the calls of the chain of a mutation *)
  mutation : Mutator -> Params -> list Call;
}.

Module CoreModel.
Section Model.
Context {W : Type} (cv : Conventions).

(** Modelled from the spec: [getSoftDeleteMode] of [./core].  "Soft-delete
    mode is applied when configured". *)
Definition getSoftDeleteMode (softDelete : bool) : SoftDeleteMode :=
  if softDelete then exclude else include.

(** Modelled from the spec: return the error as a value, or raise it, "per the
    OrThrow method variant selected by the caller". *)
Definition settle (orThrow : bool) (r : Response) : Outcome :=
  if orThrow && reported r then Raised (error r) else Returned r.

(** Modelled from the spec: one exchange with the client. *)
Definition run (q : Chain W) (orThrow : bool) : Task W Outcome :=
  r ← await q; mret (settle orThrow r).

Definition chained (q : Chain W) (cs : list Call) : Chain W :=
  fold_left invoke cs q.

(** Modelled from the spec: "the mapping from declarative parameter objects
    (where, is, wherein, order, soft-delete mode) to a sequence of
    filter-builder calls", in the order in which the spec names the parts. *)
Definition applyWhere (q : Chain W) (entries : list (string * Value)) : Chain W :=
  fold_left (fun q e => invoke q (CEq e.1 e.2)) entries q.

Definition applyIs (q : Chain W) (entries : list (string * option bool)) : Chain W :=
  fold_left (fun q e => invoke q (CIs e.1 e.2)) entries q.

Definition applyWherein (q : Chain W) (entries : list (string * list Value)) : Chain W :=
  fold_left (fun q e => invoke q (CIn e.1 e.2)) entries q.

Definition applyOrder (q : Chain W) (entries : list (string * bool)) : Chain W :=
  fold_left
    (fun q e => invoke q (COrder e.1 (Some {| ascending := Some e.2 |})))
    entries q.

Definition applySoftDelete (q : Chain W) (mode : SoftDeleteMode) : Chain W :=
  match mode with
  | exclude => invoke q (notDeleted cv)
  | include => q
  end.

Definition applyId (q : Chain W) (id : option Value) : Chain W :=
  match id with
  | Some v => chained q (byId cv v)
  | None => q
  end.

(** Modelled from the spec: [makeGetItem] of [./core].  Its parameter object
    has an [id] besides ("query parameters including id, where conditions, and
    is conditions"); every other member is mapped as for getItems.  The spec
    has every operation delegate to [client.from] on the table and has no word
    on the trailing [schema], the argument the schema-generic factory passes:
    the model follows the spec, starts the chain at [client.from(name)] and
    leaves the argument unused.  What the [./core] of the repository does with
    it is outside this model. *)
Definition makeGetItem (client : SupabaseClientType W) (name : string)
    (softDeleteMode : SoftDeleteMode) (schema : option string) : Params -> Query W :=
  fun params method =>
    let q := chained (start client name) (opening cv) in
    let q := applyId q (id params) in
    let q := applyWhere q (where_ params) in
    let q := applyIs q (is_ params) in
    let q := applyWherein q (wherein params) in
    let q := applyOrder q (order params) in
    let q := applySoftDelete q softDeleteMode in
    run (chained q (closing cv (cardinality method))) (orThrow method).

(** Modelled from the spec: [makeGetItems] of [./core]; its parameter object
    has [where], [is], [wherein] and [order] ("optional query parameters
    including where, is, wherein, and order"). *)
Definition makeGetItems (client : SupabaseClientType W) (name : string)
    (softDeleteMode : SoftDeleteMode) (schema : option string) : Params -> Query W :=
  fun params method =>
    let q := chained (start client name) (opening cv) in
    let q := applyWhere q (where_ params) in
    let q := applyIs q (is_ params) in
    let q := applyWherein q (wherein params) in
    let q := applyOrder q (order params) in
    let q := applySoftDelete q softDeleteMode in
    run (chained q (closing cv (cardinality method))) (orThrow method).

(** Modelled from the spec: the mutations of [./core] (add, update, upsert,
    delete): one chain on [client.from(name)], one exchange. *)
Definition makeMutation (u : Mutator) (client : SupabaseClientType W) (name : string)
    (schema : option string) : Params -> MutationQuery W :=
  fun params orThrow =>
    run (chained (start client name) (mutation cv u params)) orThrow.

Definition core : Core W :=
  @Build_Core W
    getSoftDeleteMode
    makeGetItem
    makeGetItems
    (makeMutation addItems)
    (makeMutation updateItem)
    (makeMutation updateItems)
    (makeMutation upsertItems)
    (makeMutation deleteItem)
    (makeMutation deleteItems).

End Model.
End CoreModel.

(* ===================================================================== *)
(** ** What the statements speak of                                      *)
(* ===================================================================== *)

Section Statements.
Context {W : Type}.

(** One exchange with the client, told from outside: the chain is begun by
    [client.from(table)], the calls are made on it in order, the client answers
    and moves its state on, and the answer is returned, or its error raised. *)
Definition exchange (client : SupabaseClientType W) (rq : Request) (orThrow : bool)
    : Task W Outcome :=
  fun s =>
    let '(r, w) := from client (table rq) (calls rq) (world s) in
    (CoreModel.settle orThrow r, {| world := w; journal := journal s ++ [rq] |}).

(** The entities of one table, one from each factory, over the modelled
    [./core]. *)
Definition entities (cv : Conventions) (client : SupabaseClientType W) (name : string)
    (config : EntityConfig) : list (gmap string (Property W)) :=
  [NonGeneric.Entity (CoreModel.core cv) client name config;
   Generic.Entity (CoreModel.core cv) client name config].

End Statements.

(** The filters a parameter object asks for, entry by entry: an equality filter
    for each [where] entry, an [is] filter for each [is] entry, an [in] filter
    for each [wherein] entry, an [order] call with the direction given for each
    [order] entry. *)
Definition whereFilters (p : Params) : list Call :=
  map (fun e => CEq e.1 e.2) (where_ p).

Definition isFilters (p : Params) : list Call :=
  map (fun e => CIs e.1 e.2) (is_ p).

Definition whereinFilters (p : Params) : list Call :=
  map (fun e => CIn e.1 e.2) (wherein p).

Definition orderCalls (p : Params) : list Call :=
  map (fun e => COrder e.1 (Some {| ascending := Some e.2 |})) (order p).

(** The calls for the [id] of a parameter object: those of the convention for
    getItem when an [id] is given, none for getItems. *)
Definition idCalls (cv : Conventions) (g : Getter) (p : Params) : list Call :=
  match g, id p with
  | getItem, Some v => byId cv v
  | _, _ => []
  end.

(** The chain a get method is expected to make: with the soft-delete filter
    ([getCalls cv true]) and without it ([getCalls cv false]). *)
Definition getCalls (cv : Conventions) (softDelete : bool) (g : Getter) (p : Params)
    (c : Cardinality) : list Call :=
  opening cv ++ idCalls cv g p
  ++ whereFilters p ++ isFilters p ++ whereinFilters p ++ orderCalls p
  ++ (if softDelete then [notDeleted cv] else [])
  ++ closing cv c.

Definition getRequest (cv : Conventions) (name : string) (softDelete : bool)
    (g : Getter) (p : Params) (c : Cardinality) : Request :=
  {| table := name; calls := getCalls cv softDelete g p c |}.

(** The request of any use of an entity. *)
Definition requestOf (cv : Conventions) (name : string) (config : EntityConfig)
    (x : Execution) (p : Params) : Request :=
  match x with
  | Get g m => getRequest cv name (softDelete config) g p (cardinality m)
  | Mutate u _ => {| table := name; calls := mutation cv u p |}
  end.

(* ===================================================================== *)
(** ** Sample inputs                                                     *)
(* ===================================================================== *)

(** A client whose state counts the requests it has answered.  It reports an
    error for the table ["missing"]. *)
Definition sample_client : SupabaseClientType nat :=
  {| from := fun name cs w =>
       ({| data := VNumber (Z.of_nat (length cs + w));
           error := if String.eqb name "missing" then VString "not found" else VNull |},
        S w) |}.

Definition sample_conventions : Conventions :=
  {| opening := [CSelect (Some "*")];
     byId v := [CEq "id" v];
     notDeleted := CIs "deleted" None;
     closing c :=
       match c with
       | one => [CSingle]
       | many => []
       | first => [CLimit 1]
       end;
     mutation u p :=
       match u with
       | addItems => [CInsert (VArray (items p))]
       | updateItem => CUpdate (VArray (items p)) :: whereFilters p ++ isFilters p
       | updateItems => CUpdate (VArray (items p)) :: whereFilters p ++ whereinFilters p
       | upsertItems => [CUpsert (VArray (items p)) None]
       | deleteItem => CDelete :: whereFilters p
       | deleteItems => CDelete :: whereFilters p ++ whereinFilters p
       end |}.

Definition sample_config : EntityConfig :=
  {| softDelete := true; schema := None |}.

Definition sample_params : Params :=
  {| id := Some (VString "123");
     where_ := [("status", VString "active")];
     is_ := [("archived", Some false)];
     wherein := [("kind", [VNumber 1; VNumber 2])];
     order := [("created_at", false)];
     items := [VObject [("name", VString "acme")]] |}.

Definition sample_session : Session nat :=
  {| world := 0; journal := [] |}.

(** [Entity("tenants", { softDelete: true })], from the schema-generic factory. *)
Definition sample_entity : gmap string (Property nat) :=
  Generic.Entity (CoreModel.core sample_conventions) sample_client "tenants" sample_config.

(* ===================================================================== *)
(** ** Rows, flags and filters                                           *)
(* ===================================================================== *)

(** The calls that change what is stored: insert, update, upsert, delete. *)
Definition mutates (c : Call) : bool :=
  match c with
  | CInsert _ | CUpdate _ | CUpsert _ _ | CDelete => true
  | _ => false
  end.

(** The rows of an answer: the elements of [data] when it is an array, the one
    row when it is a single value, none when it is [null]. *)
Definition rowsOf (r : Response) : list Value :=
  match data r with
  | VArray rows => rows
  | VNull => []
  | row => [row]
  end.

(** The client takes the call [c] for a filter that excludes the rows flagged
    as deleted: its answer to a chain in which [c] occurs holds no flagged
    row. *)
Definition excludesFlagged {W} (client : SupabaseClientType W) (flagged : Value -> bool)
    (c : Call) : Prop :=
  forall name cs w,
    c ∈ cs -> Forall (fun row => flagged row = false) (rowsOf (from client name cs w).1).

(** The conventions of the get methods change nothing that is stored. *)
Definition readOnly (cv : Conventions) : Prop :=
  Forall (fun c => mutates c = false) (opening cv)
  /\ (forall v, Forall (fun c => mutates c = false) (byId cv v))
  /\ mutates (notDeleted cv) = false
  /\ (forall c, Forall (fun c => mutates c = false) (closing cv c)).

(** The rows of the answer that an outcome returns; none when it raises. *)
Definition returnedRows (o : Outcome) : list Value :=
  match o with
  | Returned r => rowsOf r
  | Raised _ => []
  end.

(** A sample flag: the row has a [deleted] member that is not [null]. *)
Definition deletedAt (row : Value) : bool :=
  match row with
  | VObject fields =>
      match List.find (fun e => String.eqb e.1 "deleted") fields with
      | Some (_, VNull) | None => false
      | Some _ => true
      end
  | _ => false
  end.

Definition isDeletedFilter (c : Call) : bool :=
  match c with
  | CIs column None => String.eqb column "deleted"
  | _ => false
  end.

(** A sample client that keeps the rows of a table as its state.  It answers
    with the rows it keeps, without the rows flagged by [deletedAt] when the
    chain has [is("deleted", null)], and no chain changes the rows. *)
Definition store_client : SupabaseClientType (list Value) :=
  {| from := fun name cs rows =>
       ({| data :=
             VArray (if existsb isDeletedFilter cs
                     then List.filter (fun row => negb (deletedAt row)) rows
                     else rows);
           error := VNull |},
        rows) |}.

Definition sample_rows : list Value :=
  [VObject [("id", VString "1"); ("deleted", VNull)];
   VObject [("id", VString "2"); ("deleted", VString "2024-05-01")];
   VObject [("id", VString "3")]].

(* ===================================================================== *)
(** ** A [./core] that uses the schema                                   *)
(* ===================================================================== *)

(** The table as a schema qualifies it: [schema.name], or [name] when no schema
    is given. *)
Definition qualified (schema : option string) (name : string) : string :=
  match schema with
  | Some s => String.append s (String.append "." name)
  | None => name
  end.

(** A [./core] that puts the trailing [schema] argument to use, to compare the
    two factories over: every operation begins its chain at the table as the
    schema qualifies it and awaits it. *)
Definition schema_core {W} : Core W :=
  let read (client : SupabaseClientType W) (name : string) (mode : SoftDeleteMode)
        (schema : option string) (params : Params) (method : Method)
        : Task W Outcome :=
    r ← await (start client (qualified schema name)); mret (Returned r) in
  let write (client : SupabaseClientType W) (name : string)
        (schema : option string) (params : Params) (orThrow : bool)
        : Task W Outcome :=
    r ← await (start client (qualified schema name)); mret (Returned r) in
  @Build_Core W (fun softDelete => if softDelete then exclude else include)
    read read write write write write write write.

(** A config that names a schema. *)
Definition audit_config : EntityConfig :=
  {| softDelete := true; schema := Some "audit" |}.

(* ===================================================================== *)
(** ** Editing a schema description                                      *)
(* ===================================================================== *)

(** The description [DB] with the member [k: entry] listed in its [Tables]
    (added, or put in the place of the member [k] it had). *)
Definition schema_with_member {Shape} (DB : Types.DatabaseSchema Shape)
    (k : Types.PropertyKey) (entry : Types.TableShape Shape)
    : Types.DatabaseSchema Shape :=
  {| Types.public :=
       {| Types.Tables :=
            {| Types.members := <[k := entry]> (Types.members (Types.Tables (Types.public DB)));
               Types.index := Types.index (Types.Tables (Types.public DB)) |};
          Types.Views := Types.Views (Types.public DB);
          Types.Functions := Types.Functions (Types.public DB);
          Types.Enums := Types.Enums (Types.public DB);
          Types.CompositeTypes := Types.CompositeTypes (Types.public DB) |} |}.

(** The description [DB] with the member [k] no longer listed in its [Tables]. *)
Definition schema_without_member {Shape} (DB : Types.DatabaseSchema Shape)
    (k : Types.PropertyKey) : Types.DatabaseSchema Shape :=
  {| Types.public :=
       {| Types.Tables :=
            {| Types.members := delete k (Types.members (Types.Tables (Types.public DB)));
               Types.index := Types.index (Types.Tables (Types.public DB)) |};
          Types.Views := Types.Views (Types.public DB);
          Types.Functions := Types.Functions (Types.public DB);
          Types.Enums := Types.Enums (Types.public DB);
          Types.CompositeTypes := Types.CompositeTypes (Types.public DB) |} |}.

(** The names of the methods both factories return. *)
Definition sharedNames : list string :=
  ["getItem"; "getItems"; "addItems"; "updateItem"; "updateItems"].

(** A config with its [schema] member left out. *)
Definition without_schema (config : EntityConfig) : EntityConfig :=
  {| softDelete := softDelete config; schema := None |}.

(* ===================================================================== *)
(** ** Chains                                                            *)
(* ===================================================================== *)

Section ChainFacts.
Context {W : Type}.
Implicit Types (q : Chain W) (cs : list Call) (client : SupabaseClientType W).

(** A loop that makes one call per entry makes the calls of the mapped list. *)
Lemma fold_invoke_map {A} (f : A -> Call) (entries : list A) q :
  fold_left (fun q e => invoke q (f e)) entries q = CoreModel.chained q (map f entries).
Proof.
  unfold CoreModel.chained.
  revert q. induction entries as [|e entries IH]; intros q; [done|].
  cbn. apply IH.
Qed.

Lemma chained_app q cs1 cs2 :
  CoreModel.chained (CoreModel.chained q cs1) cs2 = CoreModel.chained q (cs1 ++ cs2).
Proof. unfold CoreModel.chained. by rewrite fold_left_app. Qed.

Lemma chained_trace q cs : trace (CoreModel.chained q cs) = trace q ++ cs.
Proof.
  unfold CoreModel.chained.
  revert q. induction cs as [|c cs IH]; intros q; cbn.
  - by rewrite app_nil_r.
  - rewrite IH. cbn. by rewrite <- app_assoc.
Qed.

Lemma chained_target q cs : target (CoreModel.chained q cs) = target q.
Proof.
  unfold CoreModel.chained.
  revert q. induction cs as [|c cs IH]; intros q; cbn; [done|]. by rewrite IH.
Qed.

(** The builder of a chain is the client's builder after the calls made. *)
Lemma chained_builder q cs rest :
  builder (CoreModel.chained q cs) rest = builder q (cs ++ rest).
Proof.
  unfold CoreModel.chained.
  revert q. induction cs as [|c cs IH]; intros q; cbn; [done|]. by rewrite IH.
Qed.

Lemma applyId_chained cv q p :
  CoreModel.applyId cv q (id p) = CoreModel.chained q (idCalls cv getItem p).
Proof. unfold CoreModel.applyId, idCalls. by destruct (id p). Qed.

Lemma applySoftDelete_chained cv q b :
  CoreModel.applySoftDelete cv q (CoreModel.getSoftDeleteMode b)
  = CoreModel.chained q (if b then [notDeleted cv] else []).
Proof. by destruct b. Qed.

(** Awaiting a chain begun on [client.from(name)] is one exchange. *)
Lemma run_chained client name cs b s :
  CoreModel.run (CoreModel.chained (start client name) cs) b s
  = exchange client {| table := name; calls := cs |} b s.
Proof.
  cbv [CoreModel.run exchange await mbind Task_bind mret Task_ret]. cbn.
  rewrite chained_builder, chained_trace, chained_target, app_nil_r. cbn.
  by destruct (from client name cs (world s)).
Qed.

Lemma makeGetItem_exchange cv client name b schema p m s :
  CoreModel.makeGetItem cv client name (CoreModel.getSoftDeleteMode b) schema p m s
  = exchange client (getRequest cv name b getItem p (cardinality m)) (orThrow m) s.
Proof.
  unfold CoreModel.makeGetItem, CoreModel.applyWhere, CoreModel.applyIs,
    CoreModel.applyWherein, CoreModel.applyOrder.
  rewrite applyId_chained, !fold_invoke_map, applySoftDelete_chained, !chained_app.
  rewrite run_chained.
  unfold getRequest, getCalls, whereFilters, isFilters, whereinFilters, orderCalls.
  by rewrite <- ?app_assoc.
Qed.

Lemma makeGetItems_exchange cv client name b schema p m s :
  CoreModel.makeGetItems cv client name (CoreModel.getSoftDeleteMode b) schema p m s
  = exchange client (getRequest cv name b getItems p (cardinality m)) (orThrow m) s.
Proof.
  unfold CoreModel.makeGetItems, CoreModel.applyWhere, CoreModel.applyIs,
    CoreModel.applyWherein, CoreModel.applyOrder.
  rewrite !fold_invoke_map, applySoftDelete_chained, !chained_app.
  rewrite run_chained.
  unfold getRequest, getCalls, idCalls, whereFilters, isFilters, whereinFilters,
    orderCalls.
  by rewrite <- ?app_assoc.
Qed.

Lemma makeMutation_exchange cv u client name schema p b s :
  CoreModel.makeMutation cv u client name schema p b s
  = exchange client {| table := name; calls := mutation cv u p |} b s.
Proof. apply run_chained. Qed.

(** What a use of an entity comes to, for each factory. *)
Lemma perform_generic (core : Core W) client name config x p :
  perform (Generic.Entity core client name config) x p
  = Some
      match x with
      | Get g m =>
          getterOf core g client name (getSoftDeleteMode core (softDelete config))
            (schema config) p m
      | Mutate u b => mutatorOf core u client name (schema config) p b
      end.
Proof. by destruct x as [[] m|[] b]. Qed.

Lemma perform_non_generic (core : Core W) client name config x p :
  perform (NonGeneric.Entity core client name config) x p
  = if shared x
    then Some
           match x with
           | Get g m =>
               getterOf core g client name (getSoftDeleteMode core (softDelete config))
                 None p m
           | Mutate u b => mutatorOf core u client name None p b
           end
    else None.
Proof. by destruct x as [[] m|[] b]. Qed.

Lemma getter_exchange cv client name b schema g p m s :
  getterOf (CoreModel.core cv) g client name (CoreModel.getSoftDeleteMode b) schema p m s
  = exchange client (getRequest cv name b g p (cardinality m)) (orThrow m) s.
Proof. destruct g; [apply makeGetItem_exchange|apply makeGetItems_exchange]. Qed.

Lemma mutator_exchange cv client name schema u p b s :
  mutatorOf (CoreModel.core cv) u client name schema p b s
  = exchange client {| table := name; calls := mutation cv u p |} b s.
Proof. destruct u; apply makeMutation_exchange. Qed.

(** Every use of an entity of either factory is one exchange, with the request
    of that use. *)
Lemma perform_exchange cv client name config e x p t :
  e ∈ entities cv client name config ->
  perform e x p = Some t ->
  forall s, t s = exchange client (requestOf cv name config x p) (throwing x) s.
Proof.
  intros He Ht s. unfold entities in He.
  apply elem_of_cons in He as [->|He];
    [|apply elem_of_cons in He as [->|He]; [|by apply elem_of_nil in He]].
  - rewrite perform_non_generic in Ht. destruct (shared x); [|discriminate].
    injection Ht as <-. destruct x as [g m|u b]; cbn [requestOf throwing].
    + apply getter_exchange.
    + apply mutator_exchange.
  - rewrite perform_generic in Ht.
    injection Ht as <-. destruct x as [g m|u b]; cbn [requestOf throwing].
    + apply getter_exchange.
    + apply mutator_exchange.
Qed.

End ChainFacts.

(* ===================================================================== *)
(** ** The schema-derived types                                          *)
(* ===================================================================== *)

(** C8.  For a schema description [DB]: [TableNames<DB>] is exactly the set of
    the string keys of [DB]'s [Tables] record; for every table name [T] in it,
    [TableRow<T>], [TableInsert<T>] and [TableUpdate<T>] are the [Row],
    [Insert] and [Update] members of the entry of [T], as the description
    supplies them; and a string that is not a table name has no such types. *)
Theorem table_types_are_schema_entries {Shape} (DB : Types.DatabaseSchema Shape) :
  (forall T, Types.TableNames DB T
             = Types.keyof (Types.Tables (Types.public DB)) (Types.KString T))
  /\ (forall T, Types.TableNames DB T = true ->
        exists entry,
          Types.access (Types.Tables (Types.public DB)) (Types.KString T) = Some entry
          /\ Types.TableRow T DB = Some (Types.Row entry)
          /\ Types.TableInsert T DB = Some (Types.Insert entry)
          /\ Types.TableUpdate T DB = Some (Types.Update entry))
  /\ (forall T, Types.TableNames DB T = false ->
        Types.TableRow T DB = None
        /\ Types.TableInsert T DB = None
        /\ Types.TableUpdate T DB = None).
Proof.
  split; [reflexivity|].
  unfold Types.TableNames, Types.and_string, Types.keyof, Types.TableRow,
    Types.TableInsert, Types.TableUpdate, Types.access.
  split; intros T HT.
  - destruct (Types.members _ !! Types.KString T) as [entry|]; [by exists entry|].
    destruct (Types.index _) as [entry|]; [by exists entry|discriminate].
  - destruct (Types.members _ !! Types.KString T); [discriminate|].
    by destruct (Types.index _).
Qed.

(** C8 at the sample description and its table ["tenants"]. *)
Lemma table_types_are_schema_entries_witness :
  Types.TableNames Types.sample_schema "tenants" = true
  /\ exists entry,
       Types.access (Types.Tables (Types.public Types.sample_schema))
         (Types.KString "tenants") = Some entry
       /\ Types.TableRow "tenants" Types.sample_schema = Some (Types.Row entry)
       /\ Types.TableInsert "tenants" Types.sample_schema = Some (Types.Insert entry)
       /\ Types.TableUpdate "tenants" Types.sample_schema = Some (Types.Update entry).
Proof.
  split; [reflexivity|].
  exact (proj1 (proj2 (table_types_are_schema_entries Types.sample_schema))
           "tenants" eq_refl).
Defined.

(** The sample description: its table names are its two string keys, and the
    types of a table are the ones it lists. *)
Example sample_schema_names :
  map (Types.TableNames Types.sample_schema) ["tenants"; "users"; "7"; "orders"]
  = [true; true; false; false].
Proof. reflexivity. Qed.

Example sample_schema_row :
  Types.TableRow "users" Types.sample_schema = Some "UserRow"
  /\ Types.TableInsert "users" Types.sample_schema = Some "UserInsert"
  /\ Types.TableUpdate "users" Types.sample_schema = Some "UserUpdate"
  /\ Types.TableRow "orders" Types.sample_schema = None.
Proof. repeat split; reflexivity. Qed.

(** Under the placeholder [Database], every string is a table name and every
    table has the row type [Record<string, unknown>]. *)
Example placeholder_database_row (T : string) :
  Types.TableNames (Types.Database "Record<string, unknown>" "unknown") T = true
  /\ Types.TableRow T (Types.Database "Record<string, unknown>" "unknown")
     = Some "Record<string, unknown>".
Proof. split; reflexivity. Qed.

(* ===================================================================== *)
(** ** The factories, over any [./core]                                  *)
(* ===================================================================== *)

(** C2 (amended).  The schema-generic factory returns an object with all eight
    operations: getItem, getItems, addItems, updateItem, updateItems,
    upsertItems, deleteItem and deleteItems.  The factory of [Entity.ts]
    returns an object with exactly the first five; it has no upsertItems,
    deleteItem or deleteItems. *)
Theorem entity_operations_by_factory {W} (core : Core W) client name config :
  provides (Generic.Entity core client name config) crudNames
  /\ dom (Generic.Entity core client name config) = list_to_set crudNames
  /\ dom (NonGeneric.Entity core client name config)
     = list_to_set ["getItem"; "getItems"; "addItems"; "updateItem"; "updateItems"].
Proof.
  split; [|split].
  - unfold provides, crudNames. repeat constructor; eexists; reflexivity.
  - unfold Generic.Entity. by rewrite dom_list_to_map_L.
  - unfold NonGeneric.Entity. by rewrite dom_list_to_map_L.
Qed.

(** C2, as stated, fails for the factory of [Entity.ts]: its object has no
    upsertItems. *)
Lemma entity_ts_lacks_operations :
  ~ provides
      (NonGeneric.Entity (CoreModel.core sample_conventions) sample_client
         "tenants" sample_config)
      crudNames.
Proof.
  unfold provides, crudNames. rewrite !Forall_cons.
  intros (_ & _ & _ & _ & _ & [f Hf] & _). vm_compute in Hf. discriminate.
Qed.




(** What the two entities ask of the client there. *)
Example schema_reaches_generic_only_journals :
  (fun t => journal (t sample_session).2)
  <$> perform (Generic.Entity schema_core sample_client "tenants" audit_config)
        (Get getItems {| cardinality := many; orThrow := false |}) sample_params
  = Some [{| table := "audit.tenants"; calls := [] |}]
  /\ (fun t => journal (t sample_session).2)
     <$> perform (NonGeneric.Entity schema_core sample_client "tenants" audit_config)
           (Get getItems {| cardinality := many; orThrow := false |}) sample_params
     = Some [{| table := "tenants"; calls := [] |}].
Proof. split; reflexivity. Qed.

(** C10.  The soft-delete setting reaches the get methods only.  For two
    configs that differ in [softDelete] only, each mutation (addItems,
    updateItem, updateItems, upsertItems, deleteItem, deleteItems) of the two
    entities is the same method, whatever [./core] is: for every parameter
    object it issues the same calls and returns the same result. *)
Theorem soft_delete_only_affects_reads {W} (core : Core W) client name config1 config2 :
  schema config1 = schema config2 ->
  forall u b p,
    perform (Generic.Entity core client name config1) (Mutate u b) p
    = perform (Generic.Entity core client name config2) (Mutate u b) p
    /\ perform (NonGeneric.Entity core client name config1) (Mutate u b) p
       = perform (NonGeneric.Entity core client name config2) (Mutate u b) p.
Proof.
  intros Hschema u b p. unfold Generic.Entity, NonGeneric.Entity. rewrite Hschema.
  split; destruct u; reflexivity.
Qed.

(** C10 at two configs that differ in [softDelete] only. *)
Lemma soft_delete_only_affects_reads_witness :
  schema {| softDelete := true; schema := Some "audit" |}
  = schema {| softDelete := false; schema := Some "audit" |}
  /\ perform
       (Generic.Entity (CoreModel.core sample_conventions) sample_client "tenants"
          {| softDelete := true; schema := Some "audit" |})
       (Mutate deleteItems true) sample_params
     = perform
         (Generic.Entity (CoreModel.core sample_conventions) sample_client "tenants"
            {| softDelete := false; schema := Some "audit" |})
         (Mutate deleteItems true) sample_params.
Proof.
  split; [reflexivity|].
  apply (soft_delete_only_affects_reads (CoreModel.core sample_conventions)
           sample_client "tenants"
           {| softDelete := true; schema := Some "audit" |}
           {| softDelete := false; schema := Some "audit" |} eq_refl).
Defined.

(* ===================================================================== *)
(** ** The generated operations, over the modelled [./core]              *)
(* ===================================================================== *)

Section Operations.
Context {W : Type}.
Implicit Types (client : SupabaseClientType W) (e : gmap string (Property W)).

(** Both factories provide the get methods. *)
Lemma perform_get_defined cv client name config g m p :
  Forall (fun e => is_Some (perform e (Get g m) p)) (entities cv client name config).
Proof. unfold entities. repeat constructor; destruct g; eexists; reflexivity. Qed.

(** Every use of a get method of an entity of either factory is one exchange,
    with the chain of that use. *)
Lemma get_exchange cv client name config g m p :
  Forall
    (fun e =>
       exists t,
         perform e (Get g m) p = Some t
         /\ forall s,
              t s = exchange client
                      (getRequest cv name (softDelete config) g p (cardinality m))
                      (orThrow m) s)
    (entities cv client name config).
Proof.
  apply Forall_forall. intros e He.
  destruct (proj1 (Forall_forall _ _) (perform_get_defined cv client name config g m p)
              e He) as [t Ht].
  exists t. split; [exact Ht|].
  intros s. exact (perform_exchange _ _ _ _ _ _ _ _ He Ht s).
Qed.

(** A get chain over read-only conventions changes nothing that is stored. *)
Lemma get_calls_read_only cv b g p c :
  readOnly cv -> Forall (fun c => mutates c = false) (getCalls cv b g p c).
Proof.
  intros (Hopen & Hid & Hfilter & Hclose).
  unfold getCalls, whereFilters, isFilters, whereinFilters, orderCalls.
  repeat (apply Forall_app; split).
  - exact Hopen.
  - unfold idCalls. destruct g; [destruct (id p)|]; [apply Hid|constructor..].
  - apply Forall_map, Forall_forall. by intros.
  - apply Forall_map, Forall_forall. by intros.
  - apply Forall_map, Forall_forall. by intros.
  - apply Forall_map, Forall_forall. by intros.
  - destruct b; by repeat constructor.
  - apply Hclose.
Qed.

(** C1.  For every parameter object given to getItem or getItems, of an entity
    of either factory, the chain the wrapped client receives on
    [client.from(name)] is that of the parameter object: after the opening
    calls (and, for getItem with an [id], the calls that pick the item), an
    equality filter on the column and value of each [where] entry, an [is]
    filter for each [is] entry, an [in] filter for each [wherein] entry, an
    [order] call with the direction given for each [order] entry; then the
    soft-delete filter, exactly when soft delete is configured; then the calls
    of the execution method.  The client answers that chain, and its answer is
    what the execution hands on. *)
Theorem get_calls_match_params cv client name config g m p :
  Forall
    (fun e =>
       exists t,
         perform e (Get g m) p = Some t
         /\ forall s,
              let cs :=
                opening cv ++ idCalls cv g p
                ++ map (fun entry => CEq entry.1 entry.2) (where_ p)
                ++ map (fun entry => CIs entry.1 entry.2) (is_ p)
                ++ map (fun entry => CIn entry.1 entry.2) (wherein p)
                ++ map (fun entry =>
                          COrder entry.1 (Some {| ascending := Some entry.2 |}))
                       (order p)
                ++ (if softDelete config then [notDeleted cv] else [])
                ++ closing cv (cardinality m) in
              let rw := from client name cs (world s) in
              t s = (CoreModel.settle (orThrow m) rw.1,
                     {| world := rw.2;
                        journal := journal s ++ [{| table := name; calls := cs |}] |}))
    (entities cv client name config).
Proof.
  eapply Forall_impl; [apply get_exchange|].
  intros e [t [Ht Hrun]]. exists t. split; [exact Ht|].
  intros s. cbn zeta. rewrite Hrun. unfold exchange, getRequest, getCalls. cbn.
  by destruct (from client name _ (world s)).
Qed.

(** C3.  Take a flag on rows, a client that takes the soft-delete filter for a
    filter excluding the flagged rows, and get conventions that change nothing
    stored.  With soft delete enabled, every getItem and getItems query carries
    that filter to the client, on a chain without insert, update, upsert or
    delete, and no row it returns is flagged: the flagged rows are left out of
    the result, not removed.  With soft delete not enabled, the chain is the
    one of the parameter object, without that filter, and the client's answer
    to it is handed on. *)
Theorem soft_delete_filter_iff_configured cv client name schema flagged g m p :
  readOnly cv ->
  excludesFlagged client flagged (notDeleted cv) ->
  Forall
    (fun e =>
       exists t,
         perform e (Get g m) p = Some t
         /\ forall s,
              let cs :=
                opening cv ++ idCalls cv g p
                ++ whereFilters p ++ isFilters p ++ whereinFilters p ++ orderCalls p
                ++ [notDeleted cv]
                ++ closing cv (cardinality m) in
              let rw := from client name cs (world s) in
              t s = (CoreModel.settle (orThrow m) rw.1,
                     {| world := rw.2;
                        journal := journal s ++ [{| table := name; calls := cs |}] |})
              /\ Forall (fun c => mutates c = false) cs
              /\ Forall (fun row => flagged row = false) (returnedRows (t s).1))
    (entities cv client name {| softDelete := true; schema := schema |})
  /\ Forall
       (fun e =>
          exists t,
            perform e (Get g m) p = Some t
            /\ forall s,
                 let cs :=
                   opening cv ++ idCalls cv g p
                   ++ whereFilters p ++ isFilters p ++ whereinFilters p ++ orderCalls p
                   ++ closing cv (cardinality m) in
                 let rw := from client name cs (world s) in
                 t s = (CoreModel.settle (orThrow m) rw.1,
                        {| world := rw.2;
                           journal := journal s ++ [{| table := name; calls := cs |}] |}))
       (entities cv client name {| softDelete := false; schema := schema |}).
Proof.
  intros Hread Hclient. split.
  - eapply Forall_impl; [apply get_exchange|].
    intros e [t [Ht Hrun]]. exists t. split; [exact Ht|].
    intros s. cbn zeta. rewrite Hrun.
    pose proof (get_calls_read_only cv true g p (cardinality m) Hread) as Hcalls.
    unfold exchange, getRequest, getCalls in *. cbn in *.
    match goal with |- context [from client name ?l _] => set (cs := l) in * end.
    assert (Hin : notDeleted cv ∈ cs).
    { unfold cs. rewrite !elem_of_app. do 6 right. apply elem_of_cons. by left. }
    pose proof (Hclient name cs (world s) Hin) as Hrows.
    destruct (from client name cs (world s)) as [r w]. cbn in *.
    split; [reflexivity|]. split; [exact Hcalls|].
    unfold CoreModel.settle. destruct (orThrow m && reported r); cbn; [constructor|].
    exact Hrows.
  - eapply Forall_impl; [apply get_exchange|].
    intros e [t [Ht Hrun]]. exists t. split; [exact Ht|].
    intros s. cbn zeta. rewrite Hrun. unfold exchange, getRequest, getCalls. cbn.
    by destruct (from client name _ (world s)).
Qed.

(** C5.  Every operation of an entity is one chain on the wrapped client: it
    is begun by [client.from] on the entity's table name, only builder calls
    are made on it, the client's state afterwards is what the client made it,
    and the outcome is the client's answer as it came (or, for an [OrThrow]
    method, the error of that answer, raised). *)
Theorem operations_delegate_to_client cv client name config e x p t :
  e ∈ entities cv client name config ->
  perform e x p = Some t ->
  exists cs, forall s,
    let rw := from client name cs (world s) in
    (t s).2 = {| world := rw.2;
                 journal := journal s ++ [{| table := name; calls := cs |}] |}
    /\ ((t s).1 = Returned rw.1
        \/ throwing x = true /\ reported rw.1 = true /\ (t s).1 = Raised (error rw.1)).
Proof.
  intros He Ht. exists (calls (requestOf cv name config x p)). intros s.
  rewrite (perform_exchange _ _ _ _ _ _ _ _ He Ht s). unfold exchange.
  assert (Htable : table (requestOf cv name config x p) = name) by by destruct x.
  destruct (requestOf cv name config x p) as [tb cs]. cbn in Htable. subst tb. cbn.
  destruct (from client name cs (world s)) as [r w]. cbn. split; [reflexivity|].
  unfold CoreModel.settle. destruct (throwing x), (reported r); cbn; auto.
Qed.

End Operations.

(* ===================================================================== *)
(** ** The statements at the sample inputs                               *)
(* ===================================================================== *)

(** The journal of [TenantEntity.getItems(params).many()] at the sample inputs. *)
Example getItems_sample_journal :
  (fun t => journal (t sample_session).2)
  <$> perform sample_entity (Get getItems {| cardinality := many; orThrow := false |})
        sample_params
  = Some [{| table := "tenants";
             calls := [CSelect (Some "*");
                       CEq "status" (VString "active");
                       CIs "archived" (Some false);
                       CIn "kind" [VNumber 1; VNumber 2];
                       COrder "created_at" (Some {| ascending := Some false |});
                       CIs "deleted" None] |}].
Proof. reflexivity. Qed.

(** The journal of [TenantEntity.getItem(params).first()] at the sample inputs. *)
Example getItem_sample_journal :
  (fun t => journal (t sample_session).2)
  <$> perform sample_entity (Get getItem {| cardinality := first; orThrow := false |})
        sample_params
  = Some [{| table := "tenants";
             calls := [CSelect (Some "*");
                       CEq "id" (VString "123");
                       CEq "status" (VString "active");
                       CIs "archived" (Some false);
                       CIn "kind" [VNumber 1; VNumber 2];
                       COrder "created_at" (Some {| ascending := Some false |});
                       CIs "deleted" None;
                       CLimit 1] |}].
Proof. reflexivity. Qed.

(** The sample client that keeps rows takes [is("deleted", null)] for the
    filter that excludes the rows flagged by [deletedAt]. *)
Lemma store_client_excludes_flagged :
  excludesFlagged store_client deletedAt (notDeleted sample_conventions).
Proof.
  intros name cs rows Hin. cbn.
  assert (Hfilter : existsb isDeletedFilter cs = true).
  { apply existsb_exists. exists (CIs "deleted" None).
    split; [by apply list_elem_of_In|reflexivity]. }
  rewrite Hfilter. apply List.Forall_forall. intros row Hrow.
  apply List.filter_In in Hrow as [_ Hrow]. by destruct (deletedAt row).
Qed.

Lemma sample_conventions_read_only : readOnly sample_conventions.
Proof.
  repeat split; try (intros []); repeat constructor.
Qed.

(** C3 at the sample client that keeps rows: the rows that
    [getItems(params).many()] returns under soft delete are not flagged. *)
Lemma soft_delete_filter_iff_configured_witness :
  readOnly sample_conventions
  /\ excludesFlagged store_client deletedAt (notDeleted sample_conventions)
  /\ exists t,
       perform
         (Generic.Entity (CoreModel.core sample_conventions) store_client "tenants"
            {| softDelete := true; schema := None |})
         (Get getItems {| cardinality := many; orThrow := false |}) sample_params
       = Some t
       /\ Forall (fun row => deletedAt row = false)
            (returnedRows (t {| world := sample_rows; journal := [] |}).1).
Proof.
  split; [exact sample_conventions_read_only|].
  split; [exact store_client_excludes_flagged|].
  destruct (soft_delete_filter_iff_configured sample_conventions store_client "tenants"
              None deletedAt getItems {| cardinality := many; orThrow := false |}
              sample_params sample_conventions_read_only
              store_client_excludes_flagged) as [Hon _].
  apply Forall_cons in Hon as [_ Hon]. apply Forall_cons in Hon as [[t [Ht Hrun]] _].
  exists t. split; [exact Ht|].
  exact (proj2 (proj2 (Hrun {| world := sample_rows; journal := [] |}))).
Defined.

(** The rows [getItems(params).many()] returns from the sample rows: without
    the flagged row under soft delete, all three without it; the rows kept by
    the client are the same afterwards. *)
Example soft_delete_sample_rows :
  (fun t => let run := t {| world := sample_rows; journal := [] |} in
            (returnedRows run.1, world run.2))
  <$> perform
        (Generic.Entity (CoreModel.core sample_conventions) store_client "tenants"
           {| softDelete := true; schema := None |})
        (Get getItems {| cardinality := many; orThrow := false |}) sample_params
  = Some ([VObject [("id", VString "1"); ("deleted", VNull)];
           VObject [("id", VString "3")]],
          sample_rows)
  /\ (fun t => let run := t {| world := sample_rows; journal := [] |} in
               (returnedRows run.1, world run.2))
     <$> perform
           (Generic.Entity (CoreModel.core sample_conventions) store_client "tenants"
              {| softDelete := false; schema := None |})
           (Get getItems {| cardinality := many; orThrow := false |}) sample_params
     = Some (sample_rows, sample_rows).
Proof. split; reflexivity. Qed.

(** C5 at [addItems(params).execute()] on the sample entity. *)
Lemma operations_delegate_to_client_witness :
  sample_entity ∈ entities sample_conventions sample_client "tenants" sample_config
  /\ exists t,
       perform sample_entity (Mutate addItems false) sample_params = Some t
       /\ exists cs, forall s,
            (t s).2
            = {| world := (from sample_client "tenants" cs (world s)).2;
                 journal := journal s ++ [{| table := "tenants"; calls := cs |}] |}.
Proof.
  assert (He : sample_entity
               ∈ entities sample_conventions sample_client "tenants" sample_config)
    by (right; left).
  split; [exact He|]. eexists. split; [reflexivity|].
  destruct (operations_delegate_to_client sample_conventions sample_client "tenants"
              sample_config sample_entity (Mutate addItems false) sample_params _
              He eq_refl) as [cs Hcs].
  exists cs. intros s. exact (proj1 (Hcs s)).
Defined.

(* ===================================================================== *)
(** ** Further properties of the schema-derived types                    *)
(* ===================================================================== *)



(** X2.  Listing a table [T] with an entry in a schema description makes [T] a
    table name whose row, insert and update types are those of the entry, and
    leaves the table names and the types of every other table as they were. *)
Theorem listing_a_table {Shape} (DB : Types.DatabaseSchema Shape) (T : string)
    (entry : Types.TableShape Shape) :
  let DB' := schema_with_member DB (Types.KString T) entry in
  (Types.TableNames DB' T = true
   /\ Types.TableRow T DB' = Some (Types.Row entry)
   /\ Types.TableInsert T DB' = Some (Types.Insert entry)
   /\ Types.TableUpdate T DB' = Some (Types.Update entry))
  /\ (forall T', T' <> T ->
        Types.TableNames DB' T' = Types.TableNames DB T'
        /\ Types.TableRow T' DB' = Types.TableRow T' DB
        /\ Types.TableInsert T' DB' = Types.TableInsert T' DB
        /\ Types.TableUpdate T' DB' = Types.TableUpdate T' DB).
Proof.
  cbn zeta.
  unfold Types.TableNames, Types.and_string, Types.keyof, Types.TableRow,
    Types.TableInsert, Types.TableUpdate, Types.access, schema_with_member. cbn.
  split.
  - by rewrite lookup_insert_eq.
  - intros T' Hne. rewrite lookup_insert_ne by congruence. done.
Qed.

(** X2 at the sample description, to which a table ["orders"] is added. *)
Lemma listing_a_table_witness :
  "users" <> "orders"
  /\ Types.TableRow "orders"
       (schema_with_member Types.sample_schema (Types.KString "orders")
          {| Types.Row := "OrderRow"; Types.Insert := "OrderInsert";
             Types.Update := "OrderUpdate" |})
     = Some "OrderRow"
  /\ Types.TableRow "users"
       (schema_with_member Types.sample_schema (Types.KString "orders")
          {| Types.Row := "OrderRow"; Types.Insert := "OrderInsert";
             Types.Update := "OrderUpdate" |})
     = Types.TableRow "users" Types.sample_schema.
Proof.
  assert (Hne : "users" <> "orders") by discriminate.
  destruct (listing_a_table Types.sample_schema "orders"
              {| Types.Row := "OrderRow"; Types.Insert := "OrderInsert";
                 Types.Update := "OrderUpdate" |}) as [Hnew Hold].
  split; [exact Hne|]. split.
  - exact (proj1 (proj2 Hnew)).
  - exact (proj1 (proj2 (Hold "users" Hne))).
Defined.

(** X3.  A member of [Tables] under a number or a symbol key makes no table:
    with such a member listed, the table names are the same; and in a
    description whose [Tables] is met with no [Record<string, ...>], the row,
    insert and update types of every string are the same too. *)
Theorem non_string_keys_play_no_part {Shape} (DB : Types.DatabaseSchema Shape)
    (k : Types.PropertyKey) (entry : Types.TableShape Shape) (T : string) :
  (forall s, k <> Types.KString s) ->
  let DB' := schema_with_member DB k entry in
  Types.TableNames DB' T = Types.TableNames DB T
  /\ (Types.index (Types.Tables (Types.public DB)) = None ->
      Types.TableRow T DB' = Types.TableRow T DB
      /\ Types.TableInsert T DB' = Types.TableInsert T DB
      /\ Types.TableUpdate T DB' = Types.TableUpdate T DB).
Proof.
  intros Hk. cbn zeta.
  unfold Types.TableNames, Types.and_string, Types.keyof, Types.TableRow,
    Types.TableInsert, Types.TableUpdate, Types.access, schema_with_member. cbn.
  rewrite lookup_insert_ne by apply Hk. done.
Qed.

(** X3 at the sample description and the number key [9]. *)
Lemma non_string_keys_play_no_part_witness :
  (forall s, Types.KNumber 9 <> Types.KString s)
  /\ Types.TableNames
       (schema_with_member Types.sample_schema (Types.KNumber 9)
          {| Types.Row := "R9"; Types.Insert := "I9"; Types.Update := "U9" |}) "9"
     = Types.TableNames Types.sample_schema "9"
  /\ Types.TableRow "users"
       (schema_with_member Types.sample_schema (Types.KNumber 9)
          {| Types.Row := "R9"; Types.Insert := "I9"; Types.Update := "U9" |})
     = Types.TableRow "users" Types.sample_schema.
Proof.
  assert (Hk : forall s, Types.KNumber 9 <> Types.KString s) by discriminate.
  destruct (non_string_keys_play_no_part Types.sample_schema (Types.KNumber 9)
              {| Types.Row := "R9"; Types.Insert := "I9"; Types.Update := "U9" |}
              "9" Hk) as [Hnames _].
  destruct (non_string_keys_play_no_part Types.sample_schema (Types.KNumber 9)
              {| Types.Row := "R9"; Types.Insert := "I9"; Types.Update := "U9" |}
              "users" Hk) as [_ Htypes].
  split; [exact Hk|]. split; [exact Hnames|]. exact (proj1 (Htypes eq_refl)).
Defined.

(** X4.  In a schema description without an index signature, a table that is
    taken off the list is no table name any more and has no row, insert or
    update type, while every other table keeps its name and its types. *)
Theorem unlisting_a_table {Shape} (DB : Types.DatabaseSchema Shape) (T : string) :
  Types.index (Types.Tables (Types.public DB)) = None ->
  let DB' := schema_without_member DB (Types.KString T) in
  (Types.TableNames DB' T = false
   /\ Types.TableRow T DB' = None
   /\ Types.TableInsert T DB' = None
   /\ Types.TableUpdate T DB' = None)
  /\ (forall T', T' <> T ->
        Types.TableNames DB' T' = Types.TableNames DB T'
        /\ Types.TableRow T' DB' = Types.TableRow T' DB
        /\ Types.TableInsert T' DB' = Types.TableInsert T' DB
        /\ Types.TableUpdate T' DB' = Types.TableUpdate T' DB).
Proof.
  intros Hindex. cbn zeta.
  unfold Types.TableNames, Types.and_string, Types.keyof, Types.TableRow,
    Types.TableInsert, Types.TableUpdate, Types.access, schema_without_member. cbn.
  rewrite Hindex. split.
  - by rewrite lookup_delete_eq.
  - intros T' Hne. rewrite lookup_delete_ne by congruence. done.
Qed.

(** X4 at the sample description, from which ["users"] is taken. *)
Lemma unlisting_a_table_witness :
  Types.index (Types.Tables (Types.public Types.sample_schema)) = None
  /\ Types.TableNames
       (schema_without_member Types.sample_schema (Types.KString "users")) "users"
     = false
  /\ Types.TableRow "users"
       (schema_without_member Types.sample_schema (Types.KString "users"))
     = None.
Proof.
  destruct (unlisting_a_table Types.sample_schema "users" eq_refl) as [Hgone _].
  split; [reflexivity|]. split.
  - exact (proj1 Hgone).
  - exact (proj1 (proj2 Hgone)).
Defined.

(** X7.  A schema description that is extended, every listed member of
    [Tables] kept as it is, keeps its listed tables: each is a table name of
    the extended description, with the row, insert and update types it had. *)
Theorem extending_a_description {Shape} (DB DB' : Types.DatabaseSchema Shape)
    (T : string) (entry : Types.TableShape Shape) :
  Types.members (Types.Tables (Types.public DB))
    ⊆ Types.members (Types.Tables (Types.public DB')) ->
  Types.members (Types.Tables (Types.public DB)) !! Types.KString T = Some entry ->
  Types.TableNames DB' T = true
  /\ Types.TableRow T DB' = Some (Types.Row entry)
  /\ Types.TableInsert T DB' = Some (Types.Insert entry)
  /\ Types.TableUpdate T DB' = Some (Types.Update entry).
Proof.
  intros Hsub Hentry. pose proof (lookup_weaken _ _ _ _ Hentry Hsub) as Hentry'.
  unfold Types.TableNames, Types.and_string, Types.keyof, Types.TableRow,
    Types.TableInsert, Types.TableUpdate, Types.access.
  by rewrite Hentry'.
Qed.

(** X7 at the sample description, extended by a table ["orders"]. *)
Lemma extending_a_description_witness :
  Types.TableNames
    (schema_with_member Types.sample_schema (Types.KString "orders")
       {| Types.Row := "OrderRow"; Types.Insert := "OrderInsert";
          Types.Update := "OrderUpdate" |}) "tenants"
  = true
  /\ Types.TableRow "tenants"
       (schema_with_member Types.sample_schema (Types.KString "orders")
          {| Types.Row := "OrderRow"; Types.Insert := "OrderInsert";
             Types.Update := "OrderUpdate" |})
     = Some "TenantRow".
Proof.
  assert (Hsub :
    Types.members (Types.Tables (Types.public Types.sample_schema))
    ⊆ Types.members (Types.Tables (Types.public
        (schema_with_member Types.sample_schema (Types.KString "orders")
           {| Types.Row := "OrderRow"; Types.Insert := "OrderInsert";
              Types.Update := "OrderUpdate" |})))).
  { apply insert_subseteq. reflexivity. }
  destruct (extending_a_description Types.sample_schema _ "tenants"
              {| Types.Row := "TenantRow"; Types.Insert := "TenantInsert";
                 Types.Update := "TenantUpdate" |} Hsub eq_refl)
    as (Hname & Hrow & _).
  split; [exact Hname|exact Hrow].
Defined.

(* ===================================================================== *)
(** ** Further properties of the factories, over any [./core]            *)
(* ===================================================================== *)

(** X5.  For every config, the object of the factory of [Entity.ts] is the
    object the schema-generic factory returns for the same config with its
    [schema] left out, cut down to the five shared methods: under each of the
    five names it has the same method, and it has nothing under any other
    name.  So [config.schema] has no effect on an entity of [Entity.ts]. *)
Theorem entity_ts_is_generic_without_schema {W} (core : Core W) client name config k :
  NonGeneric.Entity core client name config !! k
  = if decide (k ∈ sharedNames)
    then Generic.Entity core client name (without_schema config) !! k
    else None.
Proof.
  destruct (decide (k ∈ crudNames)) as [Hk|Hk].
  - unfold crudNames in Hk.
    repeat (apply elem_of_cons in Hk as [->|Hk]; [reflexivity|]).
    by apply elem_of_nil in Hk.
  - unfold crudNames in Hk. rewrite !not_elem_of_cons in Hk.
    destruct Hk as (H1 & H2 & H3 & H4 & H5 & H6 & H7 & H8 & _).
    assert (Hts : NonGeneric.Entity core client name config !! k = None).
    { unfold NonGeneric.Entity. cbn.
      rewrite !lookup_insert_ne by congruence. apply lookup_empty. }
    assert (Hgeneric :
              Generic.Entity core client name (without_schema config) !! k = None).
    { unfold Generic.Entity. cbn.
      rewrite !lookup_insert_ne by congruence. apply lookup_empty. }
    rewrite Hts, Hgeneric. by case_decide.
Qed.

(** X6.  Every method of an entity of the schema-generic factory can be called,
    with every execution method, on every parameter object; on an entity of
    [Entity.ts] a call goes through exactly for getItem, getItems, addItems,
    updateItem and updateItems, and finds no method for upsertItems, deleteItem
    and deleteItems. *)
Theorem calls_that_find_a_method {W} (core : Core W) client name config x p :
  is_Some (perform (Generic.Entity core client name config) x p)
  /\ (is_Some (perform (NonGeneric.Entity core client name config) x p)
      <-> shared x = true).
Proof.
  rewrite perform_generic, perform_non_generic. split; [by eexists|].
  destruct (shared x); split; done.
Qed.
